(** * Tech-support agent: the deterministic core of [tech_support_agent.py]

    A shallow embedding of the two tool functions [search_knowledge_base]
    and [check_severity], of the data classes they work on, of the two
    knowledge-base literals of the module, and of the prompt that
    [handle_support_query] builds for the agent.

    Conventions of the embedding.
    - A Python [str] is a [string]; a character is a code point below 256
      (Latin-1), so [lower] is [str.lower] on that range.
    - A Python [int] is a [Z] (unbounded).
    - A [Dict[str, _]] is a [gmap string _]: dictionary equality in Python
      ignores insertion order, as does equality of [gmap]s.
    - The dictionary literal returned by [check_severity] always has the same
      three keys with values of three different types; it is a record with
      these three fields.
    - None of the operations the two functions use ([str.lower], [in] on
      strings, [dict.get] with a default, item assignment on a fresh
      dictionary, [max], integer comparison, formatting an [int]) can raise
      for arguments of their types, so both functions are plain total
      functions. *)

From Stdlib Require Import ZArith Ascii String DecimalString.
From stdpp Require Import gmap strings list fin_maps.

Local Open Scope string_scope.
Local Open Scope Z_scope.

(** ** Python builtins used by the module *)

Module Py.

(** Code points with a distinct lowercase form below 256: [A-Z], and the
    Latin-1 capitals U+00C0..U+00DE without the multiplication sign
    U+00D7.  Their lowercase form is 32 code points further. *)
Definition is_upper (c : ascii) : bool :=
  let n := N_of_ascii c in
  ((65 <=? n) && (n <=? 90)
   || (192 <=? n) && (n <=? 222) && negb (n =? 215))%N.

Definition lower_char (c : ascii) : ascii :=
  if is_upper c then ascii_of_N (N_of_ascii c + 32) else c.

(** [s.lower()] *)
Fixpoint lower (s : string) : string :=
  match s with
  | EmptyString => EmptyString
  | String c s' => String (lower_char c) (lower s')
  end.

(** [s.startswith(p)] *)
Fixpoint startswith (p s : string) : bool :=
  match p, s with
  | EmptyString, _ => true
  | String _ _, EmptyString => false
  | String a p', String b s' => Ascii.eqb a b && startswith p' s'
  end.

(** [needle in hay] on strings: [needle] starts at some position of [hay]. *)
Fixpoint contains (needle hay : string) : bool :=
  startswith needle hay
  || match hay with
     | EmptyString => false
     | String _ hay' => contains needle hay'
     end.

(** [str(n)], which is also how an f-string renders an [int]. *)
Definition str (n : Z) : string := NilZero.string_of_int (Z.to_int n).

End Py.

(** ** Data model *)

Record KnowledgeBase := {
  product : string;
  known_issues : gmap string string;
  solutions : gmap string (list string)
}.

(** The part of [RunContext[KnowledgeBase]] that the tools read. *)
Record RunContext := { deps : KnowledgeBase }.

(** The dictionary [check_severity] returns. *)
Record SeverityReport := {
  priority_level : Z;
  needs_escalation : bool;
  estimated_time : string
}.

(** ** check_severity *)

Definition severity_levels : gmap string Z :=
  {[ "low" := 1; "medium" := 2; "high" := 3; "critical" := 4 ]}.

Definition critical_keywords : list string :=
  ["crash"; "data loss"; "security"; "breach"].

(** [any(keyword in issue.lower() for keyword in critical_keywords)] *)
Definition has_critical_keyword (issue : string) : bool :=
  existsb (fun keyword => Py.contains keyword (Py.lower issue)) critical_keywords.

(** [severity_levels.get(severity.lower(), 1)], the first value of the local
    [base_priority]. *)
Definition base_priority (severity : string) : Z :=
  default 1 (severity_levels !! Py.lower severity).

Definition check_severity (ctx : RunContext) (issue severity : string)
  : SeverityReport :=
  let base_priority := base_priority severity in
  let base_priority :=
    if has_critical_keyword issue then Z.max base_priority 3
    else base_priority in
  {| priority_level := base_priority;
     needs_escalation := 3 <=? base_priority;
     estimated_time := Py.str (base_priority * 2) +:+ "h" |}.

(** ** search_knowledge_base *)

Definition search_knowledge_base (ctx : RunContext) (issue product' : string)
  : gmap string string :=
  let kb := deps ctx in
  if negb (String.eqb product' (product kb)) then
    {[ "error" := "Product not found in knowledge base" ]}
  else
    map_fold
      (fun known_issue solution matches =>
         if Py.contains (Py.lower issue) (Py.lower known_issue)
         then <[known_issue := solution]> matches
         else matches)
      ∅ (known_issues kb).

(** ** The two knowledge-base literals *)

(** The literal bound to [kb] at module scope. *)
Definition kb : KnowledgeBase := {|
  product := "CloudDB";
  known_issues := {[
    "Can't connect to database" := "Check connection string and firewall rules";
    "Database crash" := "Verify system resources and restart service";
    "Slow queries" := "Analyze query performance and optimize indexes" ]};
  solutions := {[
    "connection" := ["Check credentials"; "Verify network access"; "Test port availability"];
    "performance" := ["Run diagnostics"; "Check resource usage"; "Optimize queries"];
    "crash" := ["Collect logs"; "Check error messages"; "Restart service"] ]}
|}.

(** The literal built in the body of [handle_support_query] and passed to the
    agent as [deps]. *)
Definition handle_support_query_kb : KnowledgeBase := {|
  product := "CloudDB";
  known_issues := {[
    "Can't connect to database" := "Check connection string and firewall rules";
    "Database crash" := "Verify system resources and restart service";
    "Slow queries" := "Analyze query performance and optimize indexes" ]};
  solutions := {[
    "connection" := ["Check credentials"; "Verify network access"; "Test port availability"];
    "performance" := ["Run diagnostics"; "Check resource usage"; "Optimize queries"];
    "crash" := ["Collect logs"; "Check error messages"; "Restart service"] ]}
|}.

(** ** SupportQuery and the default of its [timestamp] field *)

(** A [datetime.datetime] value, as a point on a discrete time line. *)
Definition instant := Z.

Module SupportQuery.

Record t := {
  issue : string;
  severity : string;
  product : string;
  user_id : string;
  timestamp : instant
}.

(** What executing the [class SupportQuery] statement leaves behind: the
    right-hand side [datetime.datetime.now()] of the field declaration is
    evaluated once, while the class body runs, and the value is stored as
    the default of the field. *)
Record class := { timestamp_default : instant }.

(** The [class] statement, executed when the clock reads [now]. *)
Definition define (now : instant) : class :=
  {| timestamp_default := now |}.

(** The call [SupportQuery(issue=.., severity=.., product=.., user_id=..)],
    with or without [timestamp=..], made when the clock reads [now].  The
    constructor that pydantic generates fills a missing field with the stored
    default and does not look at the clock. *)
Definition new (cls : class) (now : instant)
    (issue severity product user_id : string) (timestamp : option instant)
  : t :=
  {| issue := issue;
     severity := severity;
     product := product;
     user_id := user_id;
     timestamp := default (timestamp_default cls) timestamp |}.

End SupportQuery.

(** ** The specification's reading of the severity table *)

Module Spec.

(** Two labels are the same when case is ignored. *)
Definition eq_ignore_case (a b : string) : bool :=
  String.eqb (Py.lower a) (Py.lower b).

Definition table : list (string * Z) :=
  [("low", 1); ("medium", 2); ("high", 3); ("critical", 4)].

(** The priority of the table row whose label is [severity] up to case,
    and 1 when there is no such row. *)
Definition base_priority (severity : string) : Z :=
  match List.find (fun row => eq_ignore_case severity (fst row)) table with
  | Some row => snd row
  | None => 1
  end.

End Spec.

(** ** handle_support_query: the prompt *)

(** The line feed that ends each line of the triple-quoted literal. *)
Definition newline : string := String "010"%char "".

(** The f-string that [handle_support_query] passes to
    [tech_support_agent.run], with its three interpolated fields. *)
Definition handle_support_query_prompt (query : SupportQuery.t) : string :=
  newline +:+
  "        Customer Issue:" +:+ newline +:+
  "        Product: " +:+ SupportQuery.product query +:+ newline +:+
  "        Severity: " +:+ SupportQuery.severity query +:+ newline +:+
  "        Issue: " +:+ SupportQuery.issue query +:+ newline +:+
  "        " +:+ newline +:+
  "        Please analyze this issue and provide a solution." +:+ newline +:+
  "        ".

(** The knowledge base that a first search leaves to search again: the
    context of a second [search_knowledge_base] call whose [known_issues]
    are the matches of the first, under the same product. *)
Definition narrowed (ctx : RunContext) (issue : string) : RunContext :=
  {| deps := {| product := product (deps ctx);
                known_issues :=
                  search_knowledge_base ctx issue (product (deps ctx));
                solutions := solutions (deps ctx) |} |}.

(** [needle] occurs in [hay] as a contiguous block. *)
Definition is_substring (needle hay : string) : Prop :=
  exists pre post, hay = pre +:+ needle +:+ post.

(** * Properties *)

(** ** Strings *)

Lemma startswith_spec p s :
  Py.startswith p s = true <-> exists post, s = p +:+ post.
Proof.
  revert s; induction p as [|a p IH]; intros s; simpl.
  - split; [intros _; by exists s | done].
  - destruct s as [|b s].
    + split; [done | intros [post Hp]; discriminate].
    + rewrite andb_true_iff, IH. split.
      * intros [Hab [post ->]]. apply Ascii.eqb_eq in Hab as ->. by exists post.
      * intros [post Hp]. injection Hp as -> ->.
        split; [apply Ascii.eqb_refl | by exists post].
Qed.

Lemma contains_spec needle hay :
  Py.contains needle hay = true <-> is_substring needle hay.
Proof.
  unfold is_substring. induction hay as [|c hay IH].
  - simpl. rewrite orb_false_r, startswith_spec. split.
    + intros [post Hp]. by exists "", post.
    + intros [pre [post Hp]]. destruct pre; [by exists post | discriminate].
  - cbn [Py.contains]. rewrite orb_true_iff, IH, startswith_spec. split.
    + intros [[post Hp] | [pre [post Hp]]].
      * by exists "", post.
      * exists (String c pre), post. simpl. by rewrite Hp.
    + intros [pre [post Hp]]. destruct pre as [|d pre].
      * left. by exists post.
      * right. injection Hp as _ Hp. by exists pre, post.
Qed.

Lemma contains_empty hay : Py.contains "" hay = true.
Proof. by destruct hay. Qed.

(** ** Sample runs *)

Example lower_mixed_case : Py.lower "CRITICAL Data Loss" = "critical data loss".
Proof. reflexivity. Qed.

Example contains_inside : Py.contains "crash" "database crash" = true.
Proof. reflexivity. Qed.

Example contains_absent : Py.contains "breach" "slow queries" = false.
Proof. reflexivity. Qed.

Example str_of_negative : Py.str (-12) = "-12".
Proof. reflexivity. Qed.

Example check_severity_slow_queries ctx :
  check_severity ctx "Slow queries" "medium" =
    {| priority_level := 2; needs_escalation := false; estimated_time := "4h" |}.
Proof. reflexivity. Qed.

Example check_severity_upper_label ctx :
  check_severity ctx "Login page is slow" "HIGH" =
    {| priority_level := 3; needs_escalation := true; estimated_time := "6h" |}.
Proof. reflexivity. Qed.

Example check_severity_unknown_label ctx :
  check_severity ctx "Login page is slow" "urgent" =
    {| priority_level := 1; needs_escalation := false; estimated_time := "2h" |}.
Proof. reflexivity. Qed.

Example search_crash_on_sample :
  search_knowledge_base {| deps := kb |} "CRASH" "CloudDB" =
    {[ "Database crash" := "Verify system resources and restart service" ]}.
Proof. vm_compute. reflexivity. Qed.

(** ** The severity table *)

Lemma severity_levels_lookup (label : string) :
  severity_levels !! label =
    if decide (label = "low") then Some 1
    else if decide (label = "medium") then Some 2
    else if decide (label = "high") then Some 3
    else if decide (label = "critical") then Some 4
    else None.
Proof.
  unfold severity_levels.
  repeat (rewrite lookup_insert; case_decide; [subst; by repeat case_decide|]).
  rewrite lookup_singleton. by repeat case_decide.
Qed.

Lemma base_priority_table severity :
  base_priority severity = Spec.base_priority severity.
Proof.
  unfold base_priority, Spec.base_priority, Spec.eq_ignore_case, Spec.table.
  rewrite severity_levels_lookup. cbn [find fst snd].
  change (Py.lower "low") with "low".
  change (Py.lower "medium") with "medium".
  change (Py.lower "high") with "high".
  change (Py.lower "critical") with "critical".
  generalize (Py.lower severity) as label; intros label.
  repeat (case_decide as Hl;
          [subst label; reflexivity
          |apply String.eqb_neq in Hl; rewrite Hl; clear Hl]).
  reflexivity.
Qed.

Lemma base_priority_range severity :
  base_priority severity = 1 \/ base_priority severity = 2 \/
  base_priority severity = 3 \/ base_priority severity = 4.
Proof.
  unfold base_priority. rewrite severity_levels_lookup.
  repeat case_decide; simpl; auto.
Qed.

(** ** The matching loop *)

Lemma search_knowledge_base_lookup ctx issue known_issue remedy :
  search_knowledge_base ctx issue (product (deps ctx)) !! known_issue = Some remedy
  <-> known_issues (deps ctx) !! known_issue = Some remedy
      /\ Py.contains (Py.lower issue) (Py.lower known_issue) = true.
Proof.
  unfold search_knowledge_base. rewrite String.eqb_refl. cbn [negb].
  generalize (known_issues (deps ctx)) as known; intros known.
  revert known_issue remedy.
  apply (map_fold_weak_ind (fun (matches known : gmap string string) =>
    forall k v, matches !! k = Some v
      <-> known !! k = Some v /\ Py.contains (Py.lower issue) (Py.lower k) = true)).
  - intros k v. rewrite lookup_empty. split; [discriminate | intros [? _]; discriminate].
  - intros i x m matches Hfresh IH k v.
    destruct (Py.contains (Py.lower issue) (Py.lower i)) eqn:Hin.
    + destruct (decide (i = k)) as [->|Hne].
      * rewrite !lookup_insert_eq. split; [intros ->; by split | by intros [-> _]].
      * rewrite !lookup_insert_ne by done. apply IH.
    + rewrite IH. destruct (decide (i = k)) as [->|Hne].
      * rewrite lookup_insert_eq, Hfresh. split; intros [? ?]; congruence.
      * by rewrite lookup_insert_ne.
Qed.

Lemma search_knowledge_base_filter ctx issue :
  search_knowledge_base ctx issue (product (deps ctx)) =
    filter (fun entry => Py.contains (Py.lower issue) (Py.lower (fst entry)) = true)
           (known_issues (deps ctx)).
Proof.
  apply map_eq; intros k. apply option_eq; intros v.
  rewrite search_knowledge_base_lookup, map_lookup_filter_Some. reflexivity.
Qed.

Lemma search_knowledge_base_mismatch ctx issue product' :
  product' <> product (deps ctx) ->
  search_knowledge_base ctx issue product' =
    {[ "error" := "Product not found in knowledge base" ]}.
Proof.
  intros Hne. unfold search_knowledge_base.
  apply String.eqb_neq in Hne. by rewrite Hne.
Qed.

(** ** check_severity *)

Lemma priority_level_unfold ctx issue severity :
  priority_level (check_severity ctx issue severity) =
    if has_critical_keyword issue then Z.max (base_priority severity) 3
    else base_priority severity.
Proof. reflexivity. Qed.

Lemma priority_level_range ctx issue severity :
  let p := priority_level (check_severity ctx issue severity) in
  p = 1 \/ p = 2 \/ p = 3 \/ p = 4.
Proof.
  cbv zeta. rewrite priority_level_unfold.
  destruct (base_priority_range severity) as [-> | [-> | [-> | ->]]];
    destruct (has_critical_keyword issue); cbn; auto.
Qed.

(** C1: whatever the issue and the severity label, the priority level of the
    report is 1, 2, 3 or 4, and the report asks for escalation exactly when
    the priority level is at least 3. *)
Theorem check_severity_invariant ctx issue severity :
  let r := check_severity ctx issue severity in
  (priority_level r = 1 \/ priority_level r = 2 \/
   priority_level r = 3 \/ priority_level r = 4)
  /\ (needs_escalation r = true <-> 3 <= priority_level r).
Proof.
  cbv zeta. split; [apply priority_level_range|].
  unfold check_severity; cbn [needs_escalation priority_level].
  apply Z.leb_le.
Qed.

(** C2: the base priority is read from the table low=1, medium=2, high=3,
    critical=4 with the label compared up to case and 1 for a label that is
    not in the table; the priority level of the report is that base priority,
    raised to at least 3 by a critical keyword.  With the label "critical" the
    priority level is 4 for every issue. *)
Theorem check_severity_base_priority ctx issue severity :
  priority_level (check_severity ctx issue severity) =
    (if has_critical_keyword issue then Z.max (Spec.base_priority severity) 3
     else Spec.base_priority severity)
  /\ priority_level (check_severity ctx issue "critical") = 4.
Proof.
  rewrite !priority_level_unfold, <- base_priority_table. split; [reflexivity|].
  change (base_priority "critical") with 4.
  by destruct (has_critical_keyword issue).
Qed.

(** C3: with the label "low" the priority level is 1, unless the lowercased
    issue contains "crash", "data loss", "security" or "breach", and then it
    is exactly 3; for every label the keyword raises the base priority to
    its maximum with 3; the report for "Database crash" with "low" has
    priority 3, escalation, and "6h". *)
Theorem check_severity_low ctx issue :
  priority_level (check_severity ctx issue "low") =
    (if existsb (fun keyword => Py.contains keyword (Py.lower issue))
                ["crash"; "data loss"; "security"; "breach"]
     then 3 else 1)
  /\ (forall severity,
        priority_level (check_severity ctx issue severity) =
          if existsb (fun keyword => Py.contains keyword (Py.lower issue))
                     ["crash"; "data loss"; "security"; "breach"]
          then Z.max (base_priority severity) 3
          else base_priority severity)
  /\ check_severity ctx "Database crash" "low" =
       {| priority_level := 3; needs_escalation := true; estimated_time := "6h" |}.
Proof.
  split; [|split].
  - rewrite priority_level_unfold. change (base_priority "low") with 1.
    reflexivity.
  - intros severity. apply priority_level_unfold.
  - reflexivity.
Qed.

(** C4: the estimated time of every report is the decimal rendering of twice
    its priority level followed by "h": "2h", "4h", "6h" and "8h" for the
    priorities 1, 2, 3 and 4. *)
Theorem check_severity_estimated_time ctx issue severity :
  let r := check_severity ctx issue severity in
  estimated_time r = Py.str (priority_level r * 2) +:+ "h"
  /\ (priority_level r = 1 /\ estimated_time r = "2h"
      \/ priority_level r = 2 /\ estimated_time r = "4h"
      \/ priority_level r = 3 /\ estimated_time r = "6h"
      \/ priority_level r = 4 /\ estimated_time r = "8h").
Proof.
  cbv zeta. split; [reflexivity|].
  change (estimated_time (check_severity ctx issue severity))
    with (Py.str (priority_level (check_severity ctx issue severity) * 2) +:+ "h").
  destruct (priority_level_range ctx issue severity) as [Hp | [Hp | [Hp | Hp]]];
    rewrite Hp; auto 10.
Qed.

(** ** search_knowledge_base *)

(** C5: when the product argument differs from the product of the knowledge
    base, the result is the dictionary with the single entry
    "error" -> "Product not found in knowledge base", whatever the issue. *)
Theorem search_knowledge_base_product_not_found ctx issue product' :
  product' <> product (deps ctx) ->
  search_knowledge_base ctx issue product' =
    {[ "error" := "Product not found in knowledge base" ]}.
Proof. apply search_knowledge_base_mismatch. Qed.

Lemma search_knowledge_base_product_not_found_witness :
  "OtherProduct" <> product (deps {| deps := kb |})
  /\ search_knowledge_base {| deps := kb |} "connect" "OtherProduct" =
       {[ "error" := "Product not found in knowledge base" ]}.
Proof.
  split; [discriminate|].
  apply (search_knowledge_base_product_not_found {| deps := kb |}).
  discriminate.
Defined.

(** C6: when the product argument is the product of the knowledge base, the
    result holds exactly the entries of [known_issues] whose lowercased key
    contains the lowercased issue; on the sample knowledge base, "connect"
    selects the single entry about the database connection. *)
Theorem search_knowledge_base_matches :
  (forall ctx issue,
     search_knowledge_base ctx issue (product (deps ctx)) =
       filter (fun entry =>
                 Py.contains (Py.lower issue) (Py.lower (fst entry)) = true)
              (known_issues (deps ctx))
     /\ forall known_issue remedy,
          search_knowledge_base ctx issue (product (deps ctx)) !! known_issue
            = Some remedy
          <-> known_issues (deps ctx) !! known_issue = Some remedy
              /\ is_substring (Py.lower issue) (Py.lower known_issue))
  /\ search_knowledge_base {| deps := kb |} "connect" "CloudDB" =
       {[ "Can't connect to database" :=
            "Check connection string and firewall rules" ]}.
Proof.
  split.
  - intros ctx issue. split; [apply search_knowledge_base_filter|].
    intros known_issue remedy.
    rewrite search_knowledge_base_lookup, contains_spec. reflexivity.
  - vm_compute. reflexivity.
Qed.

(** C10: with the empty string as issue and the product of the knowledge
    base as product, the result is the whole [known_issues] dictionary. *)
Theorem search_knowledge_base_empty_issue ctx product' :
  product' = product (deps ctx) ->
  search_knowledge_base ctx "" product' = known_issues (deps ctx).
Proof.
  intros ->. apply map_eq; intros k. apply option_eq; intros v.
  rewrite search_knowledge_base_lookup.
  change (Py.lower "") with "". rewrite contains_empty. tauto.
Qed.

Lemma search_knowledge_base_empty_issue_witness :
  "CloudDB" = product (deps {| deps := kb |})
  /\ search_knowledge_base {| deps := kb |} "" "CloudDB" =
       {[ "Can't connect to database" := "Check connection string and firewall rules";
          "Database crash" := "Verify system resources and restart service";
          "Slow queries" := "Analyze query performance and optimize indexes" ]}.
Proof.
  split; [reflexivity|].
  apply (search_knowledge_base_empty_issue {| deps := kb |} "CloudDB").
  reflexivity.
Defined.

(** ** Totality of the two tools *)

Lemma search_knowledge_base_subseteq ctx issue :
  search_knowledge_base ctx issue (product (deps ctx)) ⊆ known_issues (deps ctx).
Proof.
  apply map_subseteq_spec; intros k v Hk.
  by apply search_knowledge_base_lookup in Hk as [Hk _].
Qed.

(** C7: both tools return a value for all string arguments: the search
    returns the error dictionary or a part of [known_issues], the severity
    check returns a report with a priority from 1 to 4 and the two fields
    derived from it; on empty strings the report has priority 1, no
    escalation and "2h". *)
Theorem core_functions_total ctx issue severity product' :
  (search_knowledge_base ctx issue product' =
     {[ "error" := "Product not found in knowledge base" ]}
   \/ search_knowledge_base ctx issue product' ⊆ known_issues (deps ctx))
  /\ (exists p,
        (p = 1 \/ p = 2 \/ p = 3 \/ p = 4)
        /\ check_severity ctx issue severity =
             {| priority_level := p;
                needs_escalation := 3 <=? p;
                estimated_time := Py.str (p * 2) +:+ "h" |})
  /\ check_severity ctx "" "" =
       {| priority_level := 1; needs_escalation := false; estimated_time := "2h" |}.
Proof.
  split; [|split].
  - destruct (decide (product' = product (deps ctx))) as [->|Hne].
    + right. apply search_knowledge_base_subseteq.
    + left. by apply search_knowledge_base_mismatch.
  - exists (priority_level (check_severity ctx issue severity)).
    split; [apply priority_level_range | reflexivity].
  - reflexivity.
Qed.

(** ** The two knowledge-base literals *)

(** C9: the literal at module scope and the literal in the handler agree on
    [product], [known_issues] and [solutions], so both tools answer the same
    on either of them. *)
Theorem knowledge_base_literals_agree :
  product kb = product handle_support_query_kb
  /\ known_issues kb = known_issues handle_support_query_kb
  /\ solutions kb = solutions handle_support_query_kb
  /\ (forall issue product',
        search_knowledge_base {| deps := kb |} issue product' =
        search_knowledge_base {| deps := handle_support_query_kb |} issue product')
  /\ (forall issue severity,
        check_severity {| deps := kb |} issue severity =
        check_severity {| deps := handle_support_query_kb |} issue severity).
Proof. repeat split. Qed.

(** ** The default timestamp of a query *)

Lemma SupportQuery_default_timestamp t0 now issue severity product' user_id :
  SupportQuery.timestamp
    (SupportQuery.new (SupportQuery.define t0) now issue severity product' user_id None)
  = t0.
Proof. reflexivity. Qed.

(** C8: the class is defined at instant 0; a query built at instant 5 and a
    query built at instant 9, both without a timestamp argument, both carry
    the instant 0 of the class definition, not the instants 5 and 9 at which
    they were created. *)
Theorem SupportQuery_default_timestamp_shared :
  let cls := SupportQuery.define 0 in
  let q1 := SupportQuery.new cls 5 "Database crash" "low" "CloudDB" "user123" None in
  let q2 := SupportQuery.new cls 9 "Slow queries" "medium" "CloudDB" "user456" None in
  SupportQuery.timestamp q1 = 0
  /\ SupportQuery.timestamp q2 = 0
  /\ SupportQuery.timestamp q1 = SupportQuery.timestamp q2
  /\ SupportQuery.timestamp q1 <> 5
  /\ SupportQuery.timestamp q2 <> 9.
Proof. cbv zeta. rewrite !SupportQuery_default_timestamp. repeat split; discriminate. Qed.

(** * Further properties of the module *)

(** ** More on strings *)

Lemma string_app_cons (x : ascii) (a b : string) :
  String x a +:+ b = String x (a +:+ b).
Proof. reflexivity. Qed.

Lemma string_app_assoc (a b c : string) : (a +:+ b) +:+ c = a +:+ b +:+ c.
Proof.
  induction a as [|x a IH]; [reflexivity|].
  by rewrite !string_app_cons, IH.
Qed.

Lemma string_app_nil_r (a : string) : a +:+ "" = a.
Proof.
  induction a as [|x a IH]; [reflexivity|]. by rewrite string_app_cons, IH.
Qed.



Lemma lower_app (a b : string) :
  Py.lower (a +:+ b) = Py.lower a +:+ Py.lower b.
Proof.
  induction a as [|x a IH]; [reflexivity|].
  rewrite string_app_cons. cbn [Py.lower]. by rewrite string_app_cons, IH.
Qed.


Lemma is_substring_refl (s : string) : is_substring s s.
Proof. exists "", "". by rewrite string_app_nil_r. Qed.

Lemma is_substring_trans (a b c : string) :
  is_substring a b -> is_substring b c -> is_substring a c.
Proof.
  intros (p1 & q1 & ->) (p2 & q2 & ->).
  exists (p2 +:+ p1), (q1 +:+ q2). by rewrite !string_app_assoc.
Qed.

Lemma is_substring_app (needle pre hay post : string) :
  is_substring needle hay -> is_substring needle (pre +:+ hay +:+ post).
Proof.
  intros H. apply (is_substring_trans _ hay); [done|]. by exists pre, post.
Qed.


Lemma is_substring_lower (a b : string) :
  is_substring a b -> is_substring (Py.lower a) (Py.lower b).
Proof.
  intros (p & q & ->). exists (Py.lower p), (Py.lower q).
  by rewrite !lower_app.
Qed.

Lemma contains_trans (a b c : string) :
  Py.contains a b = true -> Py.contains b c = true -> Py.contains a c = true.
Proof. rewrite !contains_spec. apply is_substring_trans. Qed.

Lemma contains_refl (s : string) : Py.contains s s = true.
Proof. apply contains_spec, is_substring_refl. Qed.

Lemma has_critical_keyword_spec (issue : string) :
  has_critical_keyword issue = true
  <-> exists keyword,
        keyword ∈ critical_keywords /\ is_substring keyword (Py.lower issue).
Proof.
  unfold has_critical_keyword. rewrite existsb_exists.
  split; intros (keyword & Hin & Hsub); exists keyword.
  - by rewrite list_elem_of_In, <- contains_spec.
  - by rewrite <- list_elem_of_In, contains_spec.
Qed.

(** ** More on check_severity *)

Lemma base_priority_escalates severity :
  3 <= base_priority severity
  <-> Py.lower severity = "high" \/ Py.lower severity = "critical".
Proof.
  unfold base_priority. rewrite severity_levels_lookup.
  generalize (Py.lower severity) as label; intros label.
  repeat case_decide; subst; simpl; split; intros Hb;
    try lia; auto; destruct Hb as [Hb | Hb]; done.
Qed.

Lemma base_priority_unknown severity :
  Py.lower severity ∉ ["low"; "medium"; "high"; "critical"] ->
  base_priority severity = 1.
Proof.
  intros Hout. unfold base_priority. rewrite severity_levels_lookup.
  repeat case_decide; try reflexivity; exfalso; apply Hout; set_solver.
Qed.

Lemma base_priority_lower s1 s2 :
  Py.lower s1 = Py.lower s2 -> base_priority s1 = base_priority s2.
Proof. unfold base_priority. by intros ->. Qed.

Lemma has_critical_keyword_lower i1 i2 :
  Py.lower i1 = Py.lower i2 -> has_critical_keyword i1 = has_critical_keyword i2.
Proof. unfold has_critical_keyword. by intros ->. Qed.

Lemma has_critical_keyword_app pre issue post :
  has_critical_keyword issue = true ->
  has_critical_keyword (pre +:+ issue +:+ post) = true.
Proof.
  rewrite !has_critical_keyword_spec. intros (keyword & Hin & Hsub).
  exists keyword. split; [done|].
  rewrite !lower_app. by apply is_substring_app.
Qed.

Lemma check_severity_base ctx1 ctx2 i1 i2 s1 s2 :
  has_critical_keyword i1 = has_critical_keyword i2 ->
  base_priority s1 = base_priority s2 ->
  check_severity ctx1 i1 s1 = check_severity ctx2 i2 s2.
Proof. unfold check_severity. by intros -> ->. Qed.

(** X1: a report asks for escalation exactly when the label is "high" or
    "critical" up to case, or the lowercased issue contains one of the four
    critical keywords. *)
Theorem needs_escalation_iff ctx issue severity :
  needs_escalation (check_severity ctx issue severity) = true
  <-> Py.lower severity = "high"
      \/ Py.lower severity = "critical"
      \/ exists keyword,
           keyword ∈ ["crash"; "data loss"; "security"; "breach"]
           /\ is_substring keyword (Py.lower issue).
Proof.
  change ["crash"; "data loss"; "security"; "breach"] with critical_keywords.
  rewrite <- has_critical_keyword_spec.
  unfold check_severity; cbn [needs_escalation].
  rewrite Z.leb_le.
  destruct (has_critical_keyword issue).
  - split; [auto | lia].
  - rewrite base_priority_escalates. split.
    + intros [H | H]; auto.
    + intros [H | [H | H]]; auto; discriminate.
Qed.

(** X2: the report depends on the issue and on the label only up to case,
    and not on the context: arguments with the same lowercase forms give
    the same report under any two contexts. *)
Theorem check_severity_ignores_case ctx1 ctx2 issue1 issue2 severity1 severity2 :
  Py.lower issue1 = Py.lower issue2 ->
  Py.lower severity1 = Py.lower severity2 ->
  check_severity ctx1 issue1 severity1 = check_severity ctx2 issue2 severity2.
Proof.
  intros Hi Hs. apply check_severity_base.
  - by apply has_critical_keyword_lower.
  - by apply base_priority_lower.
Qed.

Lemma check_severity_ignores_case_witness :
  Py.lower "DATA Loss on restore" = Py.lower "data loss on RESTORE"
  /\ Py.lower "Medium" = Py.lower "MEDIUM"
  /\ check_severity {| deps := kb |} "DATA Loss on restore" "Medium" =
     check_severity {| deps := handle_support_query_kb |}
                    "data loss on RESTORE" "MEDIUM".
Proof.
  split; [reflexivity|]. split; [reflexivity|].
  apply (check_severity_ignores_case {| deps := kb |}
           {| deps := handle_support_query_kb |}
           "DATA Loss on restore" "data loss on RESTORE" "Medium" "MEDIUM");
    reflexivity.
Defined.

(** X3: a label whose lowercase form is none of "low", "medium", "high",
    "critical" is handled exactly as the label "low". *)
Theorem check_severity_unknown_label_as_low ctx issue severity :
  Py.lower severity ∉ ["low"; "medium"; "high"; "critical"] ->
  check_severity ctx issue severity = check_severity ctx issue "low".
Proof.
  intros Hout. apply check_severity_base; [reflexivity|].
  by rewrite base_priority_unknown.
Qed.

Lemma check_severity_unknown_label_as_low_witness :
  (Py.lower "Urgent" ∉ ["low"; "medium"; "high"; "critical"])
  /\ check_severity {| deps := kb |} "Slow queries" "Urgent" =
     check_severity {| deps := kb |} "Slow queries" "low".
Proof.
  assert (Hout : Py.lower "Urgent" ∉ ["low"; "medium"; "high"; "critical"]).
  { intros Hin. repeat (apply elem_of_cons in Hin as [Hin | Hin];
                        [discriminate Hin|]).
    by apply elem_of_nil in Hin. }
  split; [exact Hout|].
  apply (check_severity_unknown_label_as_low {| deps := kb |} "Slow queries"
           "Urgent" Hout).
Defined.

(** X4: adding text before and after an issue never lowers the priority
    level of its report. *)
Theorem check_severity_more_text ctx issue severity pre post :
  priority_level (check_severity ctx issue severity)
  <= priority_level (check_severity ctx (pre +:+ issue +:+ post) severity).
Proof.
  rewrite !priority_level_unfold.
  destruct (has_critical_keyword issue) eqn:Hkw.
  - by rewrite (has_critical_keyword_app pre issue post Hkw).
  - destruct (has_critical_keyword (pre +:+ issue +:+ post)); lia.
Qed.

Lemma lower_contains_space severity :
  Py.contains " " severity = true -> Py.contains " " (Py.lower severity) = true.
Proof.
  rewrite !contains_spec. intros Hsub.
  by apply (is_substring_lower " " severity).
Qed.

(** X5: the label is not stripped: a label with a space anywhere in it, such
    as " high" or "high ", is handled exactly as the label "low". *)
Theorem check_severity_label_with_space ctx issue severity :
  Py.contains " " severity = true ->
  check_severity ctx issue severity = check_severity ctx issue "low".
Proof.
  intros Hsp%lower_contains_space.
  apply check_severity_base; [reflexivity|].
  rewrite base_priority_unknown; [reflexivity|].
  intros Hin.
  repeat (apply elem_of_cons in Hin as [Hin | Hin];
          [rewrite Hin in Hsp; discriminate Hsp|]).
  by apply elem_of_nil in Hin.
Qed.

Lemma check_severity_label_with_space_witness :
  Py.contains " " " high" = true
  /\ check_severity {| deps := kb |} "Login page is slow" " high" =
       {| priority_level := 1; needs_escalation := false; estimated_time := "2h" |}.
Proof.
  split; [reflexivity|].
  rewrite (check_severity_label_with_space {| deps := kb |}
             "Login page is slow" " high"); reflexivity.
Defined.

(** ** More on search_knowledge_base *)

Lemma search_knowledge_base_cases ctx issue product' :
  product' = product (deps ctx)
  \/ product' <> product (deps ctx)
     /\ search_knowledge_base ctx issue product' =
          {[ "error" := "Product not found in knowledge base" ]}.
Proof.
  destruct (decide (product' = product (deps ctx))) as [Heq | Hne]; [by left|].
  right. split; [done | by apply search_knowledge_base_mismatch].
Qed.

(** X6: the search depends on the issue only up to case: issues with the
    same lowercase form give the same result, for any product argument. *)
Theorem search_knowledge_base_ignores_case ctx issue1 issue2 product' :
  Py.lower issue1 = Py.lower issue2 ->
  search_knowledge_base ctx issue1 product' =
  search_knowledge_base ctx issue2 product'.
Proof. intros Hl. unfold search_knowledge_base. by rewrite Hl. Qed.

Lemma search_knowledge_base_ignores_case_witness :
  Py.lower "CRASH" = Py.lower "crash"
  /\ search_knowledge_base {| deps := kb |} "CRASH" "CloudDB" =
     search_knowledge_base {| deps := kb |} "crash" "CloudDB".
Proof.
  split; [reflexivity|].
  apply (search_knowledge_base_ignores_case {| deps := kb |} "CRASH" "crash").
  reflexivity.
Defined.

(** X7: a longer query never finds more: when the lowercased [issue1] occurs
    in the lowercased [issue2], every entry returned for [issue2] is also
    returned for [issue1]. *)
Theorem search_knowledge_base_narrower ctx issue1 issue2 product' :
  Py.contains (Py.lower issue1) (Py.lower issue2) = true ->
  search_knowledge_base ctx issue2 product'
    ⊆ search_knowledge_base ctx issue1 product'.
Proof.
  intros Hsub.
  destruct (search_knowledge_base_cases ctx issue1 product') as [-> | [Hne ->]].
  - apply map_subseteq_spec; intros k v.
    rewrite !search_knowledge_base_lookup. intros [Hk Hin]. split; [done|].
    by apply (contains_trans _ (Py.lower issue2)).
  - by rewrite search_knowledge_base_mismatch.
Qed.

Lemma search_knowledge_base_narrower_witness :
  Py.contains (Py.lower "Data") (Py.lower "database crash") = true
  /\ search_knowledge_base {| deps := kb |} "database crash" "CloudDB"
       ⊆ search_knowledge_base {| deps := kb |} "Data" "CloudDB".
Proof.
  split; [reflexivity|].
  apply (search_knowledge_base_narrower {| deps := kb |} "Data" "database crash").
  reflexivity.
Defined.



(** X9: searching for the exact text of a known issue, in any letter case,
    on the right product returns that entry. *)
Theorem search_knowledge_base_finds_key ctx issue known_issue remedy :
  known_issues (deps ctx) !! known_issue = Some remedy ->
  Py.lower issue = Py.lower known_issue ->
  search_knowledge_base ctx issue (product (deps ctx)) !! known_issue
    = Some remedy.
Proof.
  intros Hk Hl. apply search_knowledge_base_lookup. split; [done|].
  rewrite Hl. apply contains_refl.
Qed.

Lemma search_knowledge_base_finds_key_witness :
  known_issues (deps {| deps := kb |}) !! "Slow queries"
    = Some "Analyze query performance and optimize indexes"
  /\ Py.lower "SLOW QUERIES" = Py.lower "Slow queries"
  /\ search_knowledge_base {| deps := kb |} "SLOW QUERIES" "CloudDB"
       !! "Slow queries"
     = Some "Analyze query performance and optimize indexes".
Proof.
  split; [reflexivity|]. split; [reflexivity|].
  apply (search_knowledge_base_finds_key {| deps := kb |} "SLOW QUERIES"
           "Slow queries"); reflexivity.
Defined.

(** X10: when no known issue is called "error", the error dictionary is
    returned exactly when the product argument is not the product of the
    knowledge base, so it cannot be mistaken for a set of matches. *)
Theorem search_knowledge_base_error_iff ctx issue product' :
  known_issues (deps ctx) !! "error" = None ->
  search_knowledge_base ctx issue product' =
    {[ "error" := "Product not found in knowledge base" ]}
  <-> product' <> product (deps ctx).
Proof.
  intros Hfree. split; [|apply search_knowledge_base_mismatch].
  intros Herr ->.
  assert (Hk : search_knowledge_base ctx issue (product (deps ctx)) !! "error"
               = Some "Product not found in knowledge base").
  { rewrite Herr. apply lookup_singleton_eq. }
  apply search_knowledge_base_lookup in Hk as [Hk _]. congruence.
Qed.

Lemma search_knowledge_base_error_iff_witness :
  known_issues (deps {| deps := kb |}) !! "error" = None
  /\ (search_knowledge_base {| deps := kb |} "crash" "clouddb" =
        {[ "error" := "Product not found in knowledge base" ]}
      <-> "clouddb" <> product (deps {| deps := kb |})).
Proof.
  split; [reflexivity|].
  apply (search_knowledge_base_error_iff {| deps := kb |} "crash" "clouddb").
  reflexivity.
Defined.

(** ** Searching within the matches of a search *)

Lemma narrowed_lookup ctx issue1 issue2 known_issue remedy :
  search_knowledge_base (narrowed ctx issue1) issue2 (product (deps ctx))
    !! known_issue = Some remedy
  <-> known_issues (deps ctx) !! known_issue = Some remedy
      /\ Py.contains (Py.lower issue1) (Py.lower known_issue) = true
      /\ Py.contains (Py.lower issue2) (Py.lower known_issue) = true.
Proof.
  change (product (deps ctx)) with (product (deps (narrowed ctx issue1))) at 1.
  rewrite search_knowledge_base_lookup.
  change (known_issues (deps (narrowed ctx issue1)))
    with (search_knowledge_base ctx issue1 (product (deps ctx))).
  rewrite search_knowledge_base_lookup. tauto.
Qed.

Lemma narrowed_mismatch ctx issue1 issue2 product' :
  product' <> product (deps ctx) ->
  search_knowledge_base (narrowed ctx issue1) issue2 product' =
    {[ "error" := "Product not found in knowledge base" ]}.
Proof. intros Hne. by apply search_knowledge_base_mismatch. Qed.

(** X11: two searches in a row, the second within the matches of the first,
    return the entries that match both issues, and the order of the two
    issues does not matter. *)
Theorem search_knowledge_base_twice_comm ctx issue1 issue2 product' :
  search_knowledge_base (narrowed ctx issue1) issue2 product' =
  search_knowledge_base (narrowed ctx issue2) issue1 product'.
Proof.
  destruct (decide (product' = product (deps ctx))) as [-> | Hne].
  - apply map_eq; intros k. apply option_eq; intros v.
    rewrite !narrowed_lookup. tauto.
  - by rewrite !narrowed_mismatch.
Qed.

(** X12: refining a query loses nothing: when the lowercased [issue1] occurs
    in the lowercased [issue2], searching [issue2] within the matches of
    [issue1] gives the same result as searching [issue2] in the whole
    knowledge base; in particular a repeated search changes nothing. *)
Theorem search_knowledge_base_refine ctx issue1 issue2 product' :
  Py.contains (Py.lower issue1) (Py.lower issue2) = true ->
  search_knowledge_base (narrowed ctx issue1) issue2 product' =
  search_knowledge_base ctx issue2 product'.
Proof.
  intros Hsub. destruct (decide (product' = product (deps ctx))) as [-> | Hne].
  - apply map_eq; intros k. apply option_eq; intros v.
    rewrite narrowed_lookup, search_knowledge_base_lookup.
    split; [tauto|]. intros [Hk Hin]. repeat split; [done| |done].
    by apply (contains_trans _ (Py.lower issue2)).
  - by rewrite narrowed_mismatch, search_knowledge_base_mismatch.
Qed.

Lemma search_knowledge_base_refine_witness :
  Py.contains (Py.lower "data") (Py.lower "Database") = true
  /\ search_knowledge_base (narrowed {| deps := kb |} "data") "Database" "CloudDB"
     = search_knowledge_base {| deps := kb |} "Database" "CloudDB".
Proof.
  split; [reflexivity|].
  apply (search_knowledge_base_refine {| deps := kb |} "data" "Database").
  reflexivity.
Defined.

(** ** The prompt of handle_support_query *)





(** X14: the fields are interpolated as they are: a severity followed by a
    line feed and an "Issue: " line of its own gives the same prompt as the
    query whose issue starts with the text of that line, so a line feed in
    the severity moves the border between the two fields. *)
Theorem handle_support_query_prompt_forged_issue
    (product' severity text issue user1 user2 : string) (t1 t2 : instant) :
  handle_support_query_prompt
    {| SupportQuery.issue := issue;
       SupportQuery.severity := severity +:+ newline +:+ "        Issue: " +:+ text;
       SupportQuery.product := product';
       SupportQuery.user_id := user1;
       SupportQuery.timestamp := t1 |}
  = handle_support_query_prompt
      {| SupportQuery.issue := text +:+ newline +:+ "        Issue: " +:+ issue;
         SupportQuery.severity := severity;
         SupportQuery.product := product';
         SupportQuery.user_id := user2;
         SupportQuery.timestamp := t2 |}.
Proof.
  unfold handle_support_query_prompt.
  cbn [SupportQuery.issue SupportQuery.severity SupportQuery.product].
  do 6 f_equal. rewrite !string_app_assoc. reflexivity.
Qed.
